(** * timer-manager: a shallow embedding of [timer-manager.py]

    The Python module defines two classes.  [Timer] is a stopwatch with an
    optional target time and an optional callback; [Timer_Manager] keeps
    named timers in a dictionary and applies an operation to all of them.

    Modelling choices.
    - Timer objects are mutable and are shared by reference (the manager's
      dictionary holds references), so they live in a heap indexed by
      locations; every method takes [self] as a location.
    - [time.time()] is an effect.  The world carries the sequence of
      readings the clock will deliver and the number of readings taken so
      far; each call consumes one reading.
    - Times are integers (ticks of the clock); the rounding of Python floats
      is not part of the model.
    - Exceptions do not roll the state back: a computation returns an
      outcome together with the world it leaves behind.
    - A Python dictionary iterates in insertion order, and [stop_all] can be
      interrupted in the middle of the iteration, so the dictionary is an
      association list in insertion order. *)

From Stdlib Require Import ZArith Lia.
From stdpp Require Import base gmap strings list.

Local Open Scope Z_scope.

(** ** Python values and exceptions *)

(** The exceptions the module raises.  [Unmodelled] marks the two places
    where the embedding ends: a location without an object, and a backing
    attribute that is not a dictionary. *)
Inductive exn : Type :=
  | ValueError (msg : string)
  | AttributeError (msg : string)
  | TypeError (msg : string)
  | Unmodelled (why : string).

Inductive outcome (A : Type) : Type :=
  | Ok (a : A)
  | Raise (e : exn).

Arguments Ok {A} a.
Arguments Raise {A} e.

(** What may be stored in [call_back]: [None], a callable known by its
    [__name__], or some other object that is not callable. *)
Inductive pyobj : Type :=
  | PyNone
  | PyCallable (name : string)
  | PyOpaque (repr : string).

Definition callable (o : pyobj) : bool :=
  match o with
  | PyCallable _ => true
  | _ => false
  end.

(** Truth value of [activation_time]: [None], [0] and [0.0] are false. *)
Definition truthy (x : option Z) : bool :=
  match x with
  | None => false
  | Some v => negb (v =? 0)
  end.

(** ** Timer objects, the heap and the clock *)

Definition loc := nat.

Record timer : Type := mkTimer {
  target_time : option Z;
  start_time : option Z;
  time_spend : Z;
  call_back : pyobj
}.

(** The spec's [running] flag is not a field of its own in the source: a
    timer runs exactly when [start_time] is not [None]. *)
Definition running (t : timer) : bool :=
  match start_time t with
  | Some _ => true
  | None => false
  end.

Record world : Type := World {
  heap : gmap loc timer;
  clock : nat -> Z;
  ticks : nat
}.

(** The reading the next call of [time.time()] returns. *)
Definition now (w : world) : Z := clock w (ticks w).

(** The world once that reading has been taken. *)
Definition tick (w : world) : world :=
  World (heap w) (clock w) (S (ticks w)).

Definition with_heap (h : gmap loc timer) (w : world) : world :=
  World h (clock w) (ticks w).

(** ** The monad of effectful code: state that survives an exception *)

Definition M (A : Type) : Type := world -> outcome A * world.

Definition ret {A} (a : A) : M A := fun w => (Ok a, w).

Definition raise {A} (e : exn) : M A := fun w => (Raise e, w).

Definition bind {A B} (m : M A) (k : A -> M B) : M B :=
  fun w =>
    match m w with
    | (Ok a, w') => k a w'
    | (Raise e, w') => (Raise e, w')
    end.

Notation "'let*' x ':=' m 'in' k" := (bind m (fun x => k))
  (at level 10, x name, m at level 100, k at level 200, only parsing).
Notation "'run' m 'then' k" := (bind m (fun _ => k))
  (at level 10, m at level 100, k at level 200, only parsing).

Definition time_time : M Z := fun w => (Ok (now w), tick w).

(** Attribute access on a timer object.  A location outside the heap has no
    counterpart in Python, where a reference keeps its object alive. *)
Definition load (self : loc) : M timer :=
  fun w =>
    match heap w !! self with
    | Some t => (Ok t, w)
    | None => (Raise (Unmodelled "dangling reference"), w)
    end.

Definition store (self : loc) (t : timer) : M unit :=
  fun w => (Ok tt, with_heap (<[self := t]> (heap w)) w).

Definition getattr {A} (field : timer -> A) (self : loc) : M A :=
  let* t := load self in ret (field t).

Definition set_start_time (self : loc) (v : option Z) : M unit :=
  let* t := load self in
  store self (mkTimer (target_time t) v (time_spend t) (call_back t)).

Definition set_time_spend (self : loc) (v : Z) : M unit :=
  let* t := load self in
  store self (mkTimer (target_time t) (start_time t) v (call_back t)).

(** Allocation of a new object, at a location that is not in use. *)
Definition alloc (t : timer) : M loc :=
  fun w =>
    let l := fresh (dom (heap w)) in
    (Ok l, with_heap (<[l := t]> (heap w)) w).

(** [any(map(f, xs))]: the elements are visited in order, the iteration
    stops at the first true result, and an exception raised by [f] leaves
    the remaining elements unvisited. *)
Fixpoint any_map {A} (f : A -> M bool) (xs : list A) : M bool :=
  match xs with
  | [] => ret false
  | x :: rest =>
      let* b := f x in
      if b then ret true else any_map f rest
  end.

(** A method that returns [None] yields a false value. *)
Definition returns_None (m : M unit) : M bool := run m then ret false.

(** [filter(f, xs)] with an effectful predicate. *)
Fixpoint filter_m {A} (f : A -> M bool) (xs : list A) : M (list A) :=
  match xs with
  | [] => ret []
  | x :: rest =>
      let* b := f x in
      let* kept := filter_m f rest in
      ret (if b then x :: kept else kept)
  end.

(** ** class Timer *)

Module Timer.

Definition __init__ (activation_time : option Z) (call_back : pyobj) : timer :=
  {| target_time := activation_time;
     start_time := None;
     time_spend := 0;
     call_back := call_back |}.

(** [Timer(activation_time, call_back=...)]. *)
Definition new (activation_time : option Z) (call_back : pyobj) : M loc :=
  alloc (__init__ activation_time call_back).

Definition get_time_spend (self : loc) : M Z :=
  let* st := getattr start_time self in
  match st with
  | None => getattr time_spend self
  | Some _ =>
      let* spent := getattr time_spend self in
      let* t := time_time in
      let* started := getattr start_time self in
      match started with
      | Some s => ret (spent + t - s)
      | None => raise (TypeError "unsupported operand type(s) for -: 'float' and 'NoneType'")
      end
  end.

Definition start (self : loc) : M unit :=
  let* st := getattr start_time self in
  match st with
  | None => let* t := time_time in set_start_time self (Some t)
  | Some _ => ret tt
  end.

Definition stop (self : loc) : M unit :=
  let* st := getattr start_time self in
  match st with
  | Some _ =>
      let* spent := get_time_spend self in
      run set_time_spend self spent then
      set_start_time self None
  | None => raise (ValueError "Timer is not running.")
  end.

Definition reset (self : loc) : M unit :=
  run set_start_time self None then
  set_time_spend self 0.

(** [self.target_time and self.get_time_spend() >= self.target_time]:
    the right operand is evaluated only when [target_time] is true. *)
Definition reached (self : loc) : M bool :=
  let* target := getattr target_time self in
  if truthy target then
    let* spent := get_time_spend self in
    let* target' := getattr target_time self in
    match target' with
    | Some d => ret (d <=? spent)
    | None => raise (TypeError "'>=' not supported between instances of 'float' and 'NoneType'")
    end
  else ret false.

Definition is_activated (self : loc) (reset_flag : bool) : M bool :=
  let* hit := reached self in
  if hit then
    run (if reset_flag then run reset self then start self else ret tt) then
    ret true
  else ret false.

Section Callbacks.

(** What calling a callable does to the world is left to the embedding
    application. *)
Variable call : string -> M unit.

Definition invoke (f : pyobj) : M unit :=
  match f with
  | PyCallable name => call name
  | _ => raise (TypeError "object is not callable")
  end.

Definition update (self : loc) : M unit :=
  let* hit := is_activated self false in
  if hit then
    let* cb := getattr call_back self in
    if callable cb then
      let* cb' := getattr call_back self in
      invoke cb'
    else ret tt
  else ret tt.

End Callbacks.

End Timer.

(** ** Dictionaries with string keys, in insertion order *)

Definition dict := list (string * loc).

Fixpoint dict_get (d : dict) (key : string) : option loc :=
  match d with
  | [] => None
  | (k, v) :: rest => if String.eqb k key then Some v else dict_get rest key
  end.

(** [key in d] *)
Definition dict_contains (d : dict) (key : string) : bool :=
  match dict_get d key with
  | Some _ => true
  | None => false
  end.

(** [d[key] = v]: an existing key keeps its place, a new key goes last. *)
Fixpoint dict_set (d : dict) (key : string) (v : loc) : dict :=
  match d with
  | [] => [(key, v)]
  | (k, v') :: rest =>
      if String.eqb k key then (k, v) :: rest
      else (k, v') :: dict_set rest key v
  end.

(** [del d[key]] *)
Fixpoint dict_del (d : dict) (key : string) : dict :=
  match d with
  | [] => []
  | (k, v) :: rest =>
      if String.eqb k key then dict_del rest key
      else (k, v) :: dict_del rest key
  end.

Definition dict_keys (d : dict) : list string := map fst d.
Definition dict_values (d : dict) : list loc := map snd d.
Definition dict_items (d : dict) : list (string * loc) := d.

(** The keys of a dictionary are pairwise distinct. *)
Definition dict_wf (d : dict) : Prop := NoDup (dict_keys d).

(** ** class Timer_Manager *)

Record timer_manager : Type := mkManager {
  __timers : dict
}.

(** Values that can be assigned to an attribute of a manager. *)
Inductive pyvalue : Type :=
  | VTimer (t : loc)
  | VDict (d : dict)
  | VOther (type_name : string).

Definition type_name_of (v : pyvalue) : string :=
  match v with
  | VTimer _ => "Timer"
  | VDict _ => "dict"
  | VOther n => n
  end.

Module Timer_Manager.

Definition does_not_exist (name : string) : exn :=
  AttributeError ("Timer '" ++ name ++ "' does not exist.").

Definition __init__ : timer_manager := {| __timers := [] |}.

(** [dict.get] returns [None] for a missing name, and [None] is false; a
    Timer instance is true, because the class defines neither
    [__bool__] nor [__len__]. *)
Definition __getattr__ (self : timer_manager) (name : string)
  : outcome loc * timer_manager :=
  match dict_get (__timers self) name with
  | Some timer => (Ok timer, self)
  | None => (Raise (does_not_exist name), self)
  end.

Definition __setattr__ (self : timer_manager) (name : string) (value : pyvalue)
  : outcome unit * timer_manager :=
  match value with
  | VTimer t =>
      (* isinstance(value, Timer) *)
      (Ok tt, {| __timers := dict_set (__timers self) name t |})
  | _ =>
      if String.eqb name "_Timer_Manager__timers" then
        match value with
        | VDict d => (Ok tt, {| __timers := d |})
        | _ => (Raise (Unmodelled "the backing attribute is not a dictionary"), self)
        end
      else
        (Raise (TypeError ("Inappropriate type for assignment: '"
                           ++ type_name_of value ++ "'.")), self)
  end.

Definition __delattr__ (self : timer_manager) (name : string)
  : outcome unit * timer_manager :=
  if dict_contains (__timers self) name then
    (Ok tt, {| __timers := dict_del (__timers self) name |})
  else (Raise (does_not_exist name), self).

Definition __len__ (self : timer_manager) : nat := length (__timers self).

Definition start_all (self : timer_manager) : M unit :=
  run any_map (fun x => returns_None (Timer.start x))
              (dict_values (__timers self)) then
  ret tt.

Definition stop_all (self : timer_manager) : M unit :=
  run any_map (fun x => returns_None (Timer.stop x))
              (dict_values (__timers self)) then
  ret tt.

Definition reset_all (self : timer_manager) : M unit :=
  run any_map (fun x => returns_None (Timer.reset x))
              (dict_values (__timers self)) then
  ret tt.

Definition get_activated (self : timer_manager) (reset_flag : bool)
  : M (list (string * loc)) :=
  filter_m (fun x => Timer.is_activated (snd x) reset_flag)
           (dict_items (__timers self)).

Definition get_all_timers (self : timer_manager) : list (string * loc) :=
  dict_items (__timers self).

Section Callbacks.

Variable call : string -> M unit.

Definition update (self : timer_manager) : M unit :=
  run any_map (fun x => returns_None (Timer.update call x))
              (dict_values (__timers self)) then
  ret tt.

End Callbacks.

End Timer_Manager.

(** ** Reading the model: elapsed time and activation as pure functions *)

(** Elapsed time in the words of the spec: [accumulated] plus
    ([now] - [start_instant]) while running, [accumulated] while stopped. *)
Definition spec_elapsed (t : timer) (reading : Z) : Z :=
  match start_time t with
  | Some s => time_spend t + (reading - s)
  | None => time_spend t
  end.

(** The world after an elapsed-time query: a running timer consumes one
    clock reading, a stopped timer none. *)
Definition after_query (t : timer) (w : world) : world :=
  if running t then tick w else w.

Definition is_running (w : world) (l : loc) : bool :=
  match heap w !! l with
  | Some t => running t
  | None => false
  end.

Definition is_stopped (w : world) (l : loc) : bool :=
  match heap w !! l with
  | Some t => negb (running t)
  | None => false
  end.

(** Activation as the source decides it: the target must be a true value
    and the elapsed time must have reached it. *)
Definition activated (t : timer) (reading : Z) : bool :=
  match target_time t with
  | Some d => negb (d =? 0) && (d <=? spec_elapsed t reading)
  | None => false
  end.

(** The world after the activation test: the elapsed time is queried only
    when the target is a true value. *)
Definition after_check (t : timer) (w : world) : world :=
  if truthy (target_time t) then after_query t w else w.

(** The timer as [is_activated(True)] leaves it when it fires. *)
Definition restarted (t : timer) (reading : Z) : timer :=
  mkTimer (target_time t) (Some reading) 0 (call_back t).

(** ** Sample data *)

(** A clock that advances by seven ticks between two readings. *)
Definition sample_clock (n : nat) : Z := 100 + 7 * Z.of_nat n.

(** A timer started at 40 with 12 ticks banked, and one that is stopped. *)
Definition stopwatch_running : timer :=
  mkTimer (Some 30) (Some 40) 12 (PyCallable "ring").

Definition stopwatch_idle : timer :=
  mkTimer (Some 30) None 12 PyNone.

Definition sample_world : world :=
  World {[ 1%nat := stopwatch_running; 2%nat := stopwatch_idle ]} sample_clock 0.

(** A timer built by [Timer(0.0, call_back=ring)], alone in its world. *)
Definition zero_target : timer := Timer.__init__ (Some 0) (PyCallable "ring").

Definition zero_world : world :=
  World {[ 1%nat := zero_target ]} sample_clock 0.

(** A callback environment: [ring] resets the timer at location 2, any
    other callable raises. *)
Definition sample_call (name : string) : M unit :=
  if String.eqb name "ring" then Timer.reset 2%nat
  else raise (ValueError "unexpected call").

(** A callback environment in which every call raises. *)
Definition failing_call (name : string) : M unit :=
  raise (ValueError "called").

(** A manager over [sample_world]: [a] is the stopped timer and comes
    first, [b] is the running one. *)
Definition sample_manager : timer_manager :=
  mkManager [("a"%string, 2%nat); ("b"%string, 1%nat)].

(** A world in which both timers run. *)
Definition busy_world : world :=
  World {[ 1%nat := stopwatch_running;
           2%nat := mkTimer None (Some 90) 0 PyNone ]} sample_clock 0.

(** [stop_all] as a loop over the values of the dictionary. *)
Definition stop_each (ls : list loc) : M bool :=
  any_map (fun x => returns_None (Timer.stop x)) ls.

(** ** Invariants and frames *)

(** What a method applied to [self] may change: nothing but the start
    instant and the accumulated time of [self].  The target and the
    callback of [self], the other timers and the clock are as before. *)
Definition touches_only (self : loc) (t : timer) (w w' : world) : Prop :=
  (exists t', heap w' !! self = Some t' /\
              target_time t' = target_time t /\
              call_back t' = call_back t) /\
  (forall l, l <> self -> heap w' !! l = heap w !! l) /\
  clock w' = clock w.

(** A clock that never runs backwards. *)
Definition monotone (w : world) : Prop :=
  forall n, clock w n <= clock w (S n).

(** Nothing negative has been accumulated and no timer was started in the
    future. *)
Definition sound (w : world) : Prop :=
  forall l t,
    heap w !! l = Some t ->
    0 <= time_spend t /\ forall s, start_time t = Some s -> s <= now w.

(** A world in which the timer at 2 has just been created and the clock
    runs forward. *)
Definition fresh_world : world :=
  World {[ 2%nat := Timer.__init__ (Some 30) PyNone ]} sample_clock 0.

(** A stopwatch: a timer without target. *)
Definition stopwatch_world : world :=
  World {[ 1%nat := mkTimer None (Some 40) 12 (PyCallable "ring") ]} sample_clock 0.

(** ** The loops of the manager *)

(** [start_all] and [reset_all] as loops over the values of the
    dictionary. *)
Definition start_each (ls : list loc) : M bool :=
  any_map (fun x => returns_None (Timer.start x)) ls.

Definition reset_each (ls : list loc) : M bool :=
  any_map (fun x => returns_None (Timer.reset x)) ls.

(** Every registered reference points to an object. *)
Definition registered (m : timer_manager) (w : world) : Prop :=
  Forall (fun l => is_Some (heap w !! l)) (dict_values (__timers m)).

(** A manager that holds the stopped timer under two names. *)
Definition twice_manager : timer_manager :=
  mkManager [("a"%string, 2%nat); ("again"%string, 2%nat)].

(** ** Histories of a manager *)

(** What a program does to the names of a manager: it assigns a timer to a
    name or deletes a name.  A deletion that raises leaves the manager as
    it was, and the program goes on. *)
Inductive registry_op : Type :=
  | Assign (name : string) (t : loc)
  | Delete (name : string).

Definition perform (m : timer_manager) (op : registry_op) : timer_manager :=
  match op with
  | Assign name t => snd (Timer_Manager.__setattr__ m name (VTimer t))
  | Delete name => snd (Timer_Manager.__delattr__ m name)
  end.

Definition replay (ops : list registry_op) (m : timer_manager) : timer_manager :=
  fold_left perform ops m.

(** The same history read as updates of a finite map. *)
Definition record (g : gmap string loc) (op : registry_op) : gmap string loc :=
  match op with
  | Assign name t => <[name := t]> g
  | Delete name => delete name g
  end.

Definition bindings (ops : list registry_op) (g : gmap string loc) : gmap string loc :=
  fold_left record ops g.

(** ** Activation seen from the manager *)

(** Whether the timer of an entry is activated when the clock reads
    [reading]. *)
Definition fires (w : world) (reading : Z) (x : string * loc) : bool :=
  match heap w !! snd x with
  | Some t => activated t reading
  | None => false
  end.

(** The state in which [is_activated(True)] leaves a timer that fired. *)
Definition is_restarted (w : world) (l : loc) : Prop :=
  exists t s, heap w !! l = Some t /\ time_spend t = 0 /\ start_time t = Some s.


(** A world whose clock stands still at 100: the running timer has 72
    ticks, the stopped one 12. *)
Definition frozen_world : world :=
  World {[ 1%nat := stopwatch_running; 2%nat := stopwatch_idle ]} (fun _ => 100) 0.

(** * Properties *)

(** ** The world *)

Lemma with_heap_id w : with_heap (heap w) w = w.
Proof. by destruct w. Qed.

Lemma heap_after_query t w : heap (after_query t w) = heap w.
Proof. unfold after_query. by destruct (running t). Qed.

(** ** Attribute access *)

Section Attributes.

Variables (w : world) (self : loc) (t : timer).
Hypothesis Hself : heap w !! self = Some t.

Lemma load_ok : load self w = (Ok t, w).
Proof using Hself. unfold load. by rewrite Hself. Qed.

Lemma getattr_ok {A} (field : timer -> A) :
  getattr field self w = (Ok (field t), w).
Proof using Hself. unfold getattr, bind. by rewrite load_ok. Qed.

Lemma set_start_time_ok v :
  set_start_time self v w =
  (Ok tt, with_heap (<[self := mkTimer (target_time t) v (time_spend t) (call_back t)]> (heap w)) w).
Proof using Hself. unfold set_start_time, bind. by rewrite load_ok. Qed.

Lemma set_time_spend_ok v :
  set_time_spend self v w =
  (Ok tt, with_heap (<[self := mkTimer (target_time t) (start_time t) v (call_back t)]> (heap w)) w).
Proof using Hself. unfold set_time_spend, bind. by rewrite load_ok. Qed.

End Attributes.

(** A new object takes the place of no other. *)
Lemma alloc_fresh t w :
  heap w !! (fresh (dom (heap w))) = None /\
  forall l t', heap w !! l = Some t' -> heap (snd (alloc t w)) !! l = Some t'.
Proof.
  assert (Hnew : heap w !! (fresh (dom (heap w))) = None)
    by (apply not_elem_of_dom, is_fresh).
  split; [done|]. intros l t' Hl. simpl.
  rewrite lookup_insert_ne; [done|]. intros <-. congruence.
Qed.

(** Reading a field of the object that was written last. *)
Lemma lookup_with_heap_eq h w self t :
  heap (with_heap (<[self := t]> h) w) !! self = Some t.
Proof. simpl. apply lookup_insert_eq. Qed.

Lemma lookup_tick w self : heap (tick w) !! self = heap w !! self.
Proof. reflexivity. Qed.

(** ** The methods of Timer, one equation per case *)

Section TimerEquations.

Variables (w : world) (self : loc) (t : timer).
Hypothesis Hself : heap w !! self = Some t.

Lemma get_time_spend_eq :
  Timer.get_time_spend self w = (Ok (spec_elapsed t (now w)), after_query t w).
Proof using Hself.
  unfold Timer.get_time_spend, bind, spec_elapsed, after_query, running.
  rewrite (getattr_ok w self t Hself).
  destruct (start_time t) as [s|] eqn:Hs.
  - rewrite (getattr_ok w self t Hself). unfold time_time.
    rewrite (getattr_ok (tick w) self t Hself), Hs. unfold ret.
    do 2 f_equal. lia.
  - by rewrite (getattr_ok w self t Hself).
Qed.

Lemma start_stopped :
  start_time t = None ->
  Timer.start self w =
  (Ok tt, with_heap (<[self := mkTimer (target_time t) (Some (now w)) (time_spend t) (call_back t)]> (heap w)) (tick w)).
Proof using Hself.
  intros Hs. unfold Timer.start, bind.
  rewrite (getattr_ok w self t Hself), Hs. unfold time_time.
  by rewrite (set_start_time_ok (tick w) self t Hself).
Qed.

Lemma start_running s :
  start_time t = Some s -> Timer.start self w = (Ok tt, w).
Proof using Hself.
  intros Hs. unfold Timer.start, bind.
  by rewrite (getattr_ok w self t Hself), Hs.
Qed.

Lemma stop_running s :
  start_time t = Some s ->
  Timer.stop self w =
  (Ok tt, with_heap (<[self := mkTimer (target_time t) None (time_spend t + (now w - s)) (call_back t)]> (heap w)) (tick w)).
Proof using Hself.
  intros Hs. unfold Timer.stop, bind.
  rewrite (getattr_ok w self t Hself), Hs, get_time_spend_eq.
  unfold after_query, running, spec_elapsed. rewrite Hs.
  rewrite (set_time_spend_ok (tick w) self t Hself).
  erewrite set_start_time_ok by apply lookup_with_heap_eq.
  simpl. unfold with_heap. simpl. by rewrite insert_insert_eq.
Qed.

Lemma stop_stopped :
  start_time t = None ->
  Timer.stop self w = (Raise (ValueError "Timer is not running."), w).
Proof using Hself.
  intros Hs. unfold Timer.stop, bind.
  by rewrite (getattr_ok w self t Hself), Hs.
Qed.

Lemma reset_eq :
  Timer.reset self w =
  (Ok tt, with_heap (<[self := mkTimer (target_time t) None 0 (call_back t)]> (heap w)) w).
Proof using Hself.
  unfold Timer.reset, bind.
  rewrite (set_start_time_ok w self t Hself).
  erewrite set_time_spend_ok by apply lookup_with_heap_eq.
  simpl. unfold with_heap. simpl. by rewrite insert_insert_eq.
Qed.

End TimerEquations.

Section ActivationEquations.

Variables (w : world) (self : loc) (t : timer).
Hypothesis Hself : heap w !! self = Some t.

Lemma heap_after_check : heap (after_check t w) = heap w.
Proof. unfold after_check. destruct (truthy _); [apply heap_after_query | done]. Qed.

Lemma reached_eq :
  Timer.reached self w = (Ok (activated t (now w)), after_check t w).
Proof using Hself.
  unfold Timer.reached, bind, activated, after_check.
  rewrite (getattr_ok w self t Hself).
  destruct (target_time t) as [d|] eqn:Hd; simpl; [|done].
  destruct (d =? 0); simpl; [done|].
  rewrite (get_time_spend_eq w self t Hself).
  assert (Hq : heap (after_query t w) !! self = Some t)
    by (by rewrite heap_after_query).
  by rewrite (getattr_ok _ self t Hq), Hd.
Qed.

Lemma is_activated_no_reset :
  Timer.is_activated self false w = (Ok (activated t (now w)), after_check t w).
Proof using Hself.
  unfold Timer.is_activated, bind. rewrite reached_eq.
  by destruct (activated t (now w)).
Qed.

Lemma is_activated_miss reset_flag :
  activated t (now w) = false ->
  Timer.is_activated self reset_flag w = (Ok false, after_check t w).
Proof using Hself.
  intros Hm. unfold Timer.is_activated, bind. by rewrite reached_eq, Hm.
Qed.

Lemma is_activated_reset_hit :
  activated t (now w) = true ->
  Timer.is_activated self true w =
  (Ok true,
   with_heap (<[self := restarted t (now (after_check t w))]> (heap w))
             (tick (after_check t w))).
Proof using Hself.
  intros Hh. unfold Timer.is_activated, bind. rewrite reached_eq, Hh.
  assert (Hq : heap (after_check t w) !! self = Some t)
    by (by rewrite heap_after_check).
  rewrite (reset_eq _ self t Hq).
  erewrite start_stopped by (apply lookup_with_heap_eq || reflexivity).
  unfold ret, restarted, with_heap. simpl.
  by rewrite insert_insert_eq, heap_after_check.
Qed.

End ActivationEquations.

(** ** Timer: stop, elapsed time, start and reset *)

(** C3: [stop()] on a running timer adds [now - start_instant] to the
    accumulated time, clears [start_instant] and so leaves the timer not
    running; on a timer that is not running (never started, or stopped
    already) it raises [ValueError] and the world is what it was. *)
Theorem stop_spec (w : world) (self : loc) (t : timer) :
  heap w !! self = Some t ->
  match start_time t with
  | Some s =>
      Timer.stop self w =
      (Ok tt,
       with_heap (<[self := mkTimer (target_time t) None
                                     (time_spend t + (now w - s))
                                     (call_back t)]> (heap w))
                 (tick w))
      /\ is_stopped (snd (Timer.stop self w)) self = true
  | None =>
      Timer.stop self w = (Raise (ValueError "Timer is not running."), w)
  end.
Proof.
  intros Hself. destruct (start_time t) as [s|] eqn:Hs.
  - rewrite (stop_running w self t Hself s Hs). split; [done|].
    unfold is_stopped. simpl. by rewrite lookup_insert_eq.
  - exact (stop_stopped w self t Hself Hs).
Qed.

Lemma stop_spec_witness :
  (heap sample_world !! 1%nat = Some stopwatch_running /\
   Timer.stop 1%nat sample_world =
   (Ok tt,
    with_heap (<[1%nat := mkTimer (Some 30) None (12 + (100 - 40))
                                  (PyCallable "ring")]> (heap sample_world))
              (tick sample_world)) /\
   is_stopped (snd (Timer.stop 1%nat sample_world)) 1%nat = true) /\
  (heap sample_world !! 2%nat = Some stopwatch_idle /\
   Timer.stop 2%nat sample_world =
   (Raise (ValueError "Timer is not running."), sample_world)).
Proof.
  split; (split; [reflexivity|]).
  - exact (stop_spec sample_world 1%nat stopwatch_running eq_refl).
  - exact (stop_spec sample_world 2%nat stopwatch_idle eq_refl).
Defined.

(** C4: the elapsed-time query [get_time_spend] changes no timer; it
    returns the accumulated time plus ([now] - [start_instant]) while the
    timer runs and the accumulated time alone while it is stopped (then
    the clock is not even read); on a timer that has just been constructed
    it returns zero. *)
Theorem get_time_spend_spec :
  (forall (w : world) (self : loc) (t : timer),
     heap w !! self = Some t ->
     fst (Timer.get_time_spend self w) =
       Ok (match start_time t with
           | Some s => time_spend t + (now w - s)
           | None => time_spend t
           end)
     /\ heap (snd (Timer.get_time_spend self w)) = heap w
     /\ (running t = false ->
         Timer.get_time_spend self w = (Ok (time_spend t), w)))
  /\
  (forall (activation_time : option Z) (cb : pyobj) (w : world),
     exists self w',
       Timer.new activation_time cb w = (Ok self, w') /\
       Timer.get_time_spend self w' = (Ok 0, w')).
Proof.
  split.
  - intros w self t Hself. rewrite (get_time_spend_eq w self t Hself). simpl.
    split; [done|]. split; [apply heap_after_query|].
    unfold running, spec_elapsed, after_query, running.
    by destruct (start_time t).
  - intros a cb w. eexists _, _. split; [reflexivity|].
    erewrite get_time_spend_eq by apply lookup_with_heap_eq.
    reflexivity.
Qed.

Lemma get_time_spend_spec_witness :
  heap sample_world !! 1%nat = Some stopwatch_running /\
  fst (Timer.get_time_spend 1%nat sample_world) = Ok (12 + (100 - 40)) /\
  heap (snd (Timer.get_time_spend 1%nat sample_world)) = heap sample_world.
Proof.
  split; [reflexivity|].
  destruct (proj1 get_time_spend_spec sample_world 1%nat stopwatch_running eq_refl)
    as (Hres & Hheap & _).
  exact (conj Hres Hheap).
Defined.

(** C7: [start()] on a timer that is already running changes nothing at
    all and does not fail; hence a second [start()] right after a first one
    leaves the world of the first one, with the start instant it recorded,
    and the elapsed time read afterwards is the one that would have been
    read without the second call. *)
Theorem start_idempotent (w : world) (self : loc) (t : timer) :
  heap w !! self = Some t ->
  (running t = true -> Timer.start self w = (Ok tt, w))
  /\ fst (Timer.start self w) = Ok tt
  /\ Timer.start self (snd (Timer.start self w)) = (Ok tt, snd (Timer.start self w))
  /\ is_running (snd (Timer.start self w)) self = true.
Proof.
  intros Hself. unfold running, is_running.
  destruct (start_time t) as [s|] eqn:Hs.
  - rewrite (start_running w self t Hself s Hs). simpl.
    rewrite (start_running w self t Hself s Hs), Hself.
    unfold running. by rewrite Hs.
  - rewrite (start_stopped w self t Hself Hs). simpl.
    rewrite (start_running _ self
               (mkTimer (target_time t) (Some (now w)) (time_spend t) (call_back t))
               (lookup_with_heap_eq _ _ _ _) (now w) eq_refl).
    by rewrite lookup_insert_eq.
Qed.

Lemma start_idempotent_witness :
  heap sample_world !! 1%nat = Some stopwatch_running /\
  (running stopwatch_running = true ->
   Timer.start 1%nat sample_world = (Ok tt, sample_world)).
Proof.
  split; [reflexivity|].
  exact (proj1 (start_idempotent sample_world 1%nat stopwatch_running eq_refl)).
Defined.

(** C8: [reset()] never fails; whatever the accumulated time and whether
    the timer runs or not, it sets the accumulated time to zero and clears
    the start instant without reading the clock (so nothing is banked), and
    the elapsed time read next is zero. *)
Theorem reset_spec (w : world) (self : loc) (t : timer) :
  heap w !! self = Some t ->
  Timer.reset self w =
  (Ok tt,
   with_heap (<[self := mkTimer (target_time t) None 0 (call_back t)]> (heap w)) w)
  /\ is_stopped (snd (Timer.reset self w)) self = true
  /\ Timer.get_time_spend self (snd (Timer.reset self w)) =
     (Ok 0, snd (Timer.reset self w)).
Proof.
  intros Hself. rewrite (reset_eq w self t Hself). simpl.
  split; [done|]. split.
  - unfold is_stopped. simpl. by rewrite lookup_insert_eq.
  - erewrite get_time_spend_eq by apply lookup_with_heap_eq. reflexivity.
Qed.

Lemma reset_spec_witness :
  heap sample_world !! 1%nat = Some stopwatch_running /\
  Timer.reset 1%nat sample_world =
  (Ok tt,
   with_heap (<[1%nat := mkTimer (Some 30) None 0 (PyCallable "ring")]>
                (heap sample_world)) sample_world) /\
  Timer.get_time_spend 1%nat (snd (Timer.reset 1%nat sample_world)) =
  (Ok 0, snd (Timer.reset 1%nat sample_world)).
Proof.
  split; [reflexivity|].
  destruct (reset_spec sample_world 1%nat stopwatch_running eq_refl)
    as (Heq & _ & Hzero).
  exact (conj Heq Hzero).
Defined.

(** ** Timer: activation and update *)

(** What [is_activated(False)] computes: it returns true exactly when the
    target is set, is not zero, and the elapsed time has reached it, and it
    changes no timer. *)
Lemma is_activated_no_reset_iff (w : world) (self : loc) (t : timer) :
  heap w !! self = Some t ->
  heap (snd (Timer.is_activated self false w)) = heap w /\
  (fst (Timer.is_activated self false w) = Ok true <->
   exists d, target_time t = Some d /\ d <> 0 /\ d <= spec_elapsed t (now w)) /\
  (fst (Timer.is_activated self false w) = Ok false <->
   ~ exists d, target_time t = Some d /\ d <> 0 /\ d <= spec_elapsed t (now w)).
Proof.
  intros Hself. rewrite (is_activated_no_reset w self t Hself). simpl.
  split; [apply heap_after_check|].
  unfold activated. destruct (target_time t) as [d|].
  - destruct (Z.eqb_spec d 0) as [->|Hd]; simpl.
    + split; split; try done.
      * intros (d & [= <-] & Hd & _). lia.
      * intros _ (d & [= <-] & Hd & _). lia.
    + destruct (Z.leb_spec d (spec_elapsed t (now w))) as [Hle|Hlt].
      * split; split; try done; [by exists d|].
        intros Hno. destruct Hno. by exists d.
      * split; split; try done.
        -- intros (d' & [= <-] & _ & Hle). lia.
        -- intros _ (d' & [= <-] & _ & Hle). lia.
  - split; split; try done.
    + by intros (d & Hd & _).
    + by intros _ (d & Hd & _).
Qed.

(** On a clock that does not run backwards, repeating [is_activated(False)]
    after it returned true returns true again. *)
Lemma is_activated_stays_true (w : world) (self : loc) (t : timer) :
  heap w !! self = Some t ->
  fst (Timer.is_activated self false w) = Ok true ->
  now w <= now (snd (Timer.is_activated self false w)) ->
  fst (Timer.is_activated self false (snd (Timer.is_activated self false w))) = Ok true.
Proof.
  intros Hself. rewrite (is_activated_no_reset w self t Hself). simpl.
  intros [= Hact] Hmono.
  assert (Hq : heap (after_check t w) !! self = Some t)
    by (by rewrite heap_after_check).
  rewrite (is_activated_no_reset _ self t Hq). simpl. f_equal.
  revert Hact Hmono. unfold activated, spec_elapsed.
  destruct (target_time t) as [d|]; [|done].
  destruct (d =? 0); simpl; [done|].
  destruct (start_time t); intros Hle Hmono;
    apply Z.leb_le; apply Z.leb_le in Hle; lia.
Qed.

(** C2, at the input where the source departs from it: on the timer built
    by [Timer(0.0, ...)] the target is set and the elapsed time, zero, has
    reached it, yet [is_activated(False)] returns false. *)
Theorem is_activated_zero_target :
  heap zero_world !! 1%nat = Some zero_target /\
  target_time zero_target = Some 0 /\
  Timer.get_time_spend 1%nat zero_world = (Ok 0, zero_world) /\
  Timer.is_activated 1%nat false zero_world = (Ok false, zero_world).
Proof. repeat split. Qed.

(** C5: when [is_activated] evaluates true, [is_activated(True)] returns
    true and leaves the timer with nothing accumulated and running from the
    instant [s] read at the restart: its elapsed time is zero at that
    instant, and a later query that reads instant [r] returns [r - s]. *)
Theorem is_activated_reset_spec (w : world) (self : loc) (t : timer) :
  heap w !! self = Some t ->
  fst (Timer.is_activated self false w) = Ok true ->
  fst (Timer.is_activated self true w) = Ok true /\
  exists s,
    s = now (snd (Timer.is_activated self false w)) /\
    heap (snd (Timer.is_activated self true w)) !! self =
      Some (mkTimer (target_time t) (Some s) 0 (call_back t)) /\
    is_running (snd (Timer.is_activated self true w)) self = true /\
    spec_elapsed (mkTimer (target_time t) (Some s) 0 (call_back t)) s = 0 /\
    forall w2,
      heap w2 !! self = heap (snd (Timer.is_activated self true w)) !! self ->
      Timer.get_time_spend self w2 = (Ok (now w2 - s), tick w2).
Proof.
  intros Hself. rewrite (is_activated_no_reset w self t Hself). simpl.
  intros [= Hact]. rewrite (is_activated_reset_hit w self t Hself Hact). simpl.
  split; [done|]. exists (now (after_check t w)).
  rewrite lookup_insert_eq. unfold is_running. simpl. rewrite lookup_insert_eq.
  repeat split; try done.
  - unfold spec_elapsed. simpl. lia.
  - intros w2 Hw2. rewrite (get_time_spend_eq w2 self _ Hw2).
    unfold spec_elapsed, after_query, running, restarted. simpl.
    do 2 f_equal.
Qed.

Lemma is_activated_reset_spec_witness :
  heap sample_world !! 1%nat = Some stopwatch_running /\
  fst (Timer.is_activated 1%nat false sample_world) = Ok true /\
  fst (Timer.is_activated 1%nat true sample_world) = Ok true.
Proof.
  split; [reflexivity|]. split; [reflexivity|].
  exact (proj1 (is_activated_reset_spec sample_world 1%nat stopwatch_running
                  eq_refl eq_refl)).
Defined.

(** C6: [update()] itself writes to no timer: it evaluates
    [is_activated(False)], which leaves every timer as it was, and then
    does nothing but call the callback, when the test was true and the
    callback is callable; otherwise it calls nothing and returns.  So,
    unless the callback writes to a timer, every timer is after [update()]
    what it was before. *)
Theorem update_spec (call : string -> M unit) (w : world) (self : loc) (t : timer) :
  heap w !! self = Some t ->
  heap (snd (Timer.is_activated self false w)) = heap w /\
  Timer.update call self w =
    match fst (Timer.is_activated self false w), call_back t with
    | Ok true, PyCallable f => call f (snd (Timer.is_activated self false w))
    | _, _ => (Ok tt, snd (Timer.is_activated self false w))
    end /\
  ((forall f w1, heap (snd (call f w1)) = heap w1) ->
   heap (snd (Timer.update call self w)) = heap w).
Proof.
  intros Hself.
  assert (Hupd : Timer.update call self w =
    match fst (Timer.is_activated self false w), call_back t with
    | Ok true, PyCallable f => call f (snd (Timer.is_activated self false w))
    | _, _ => (Ok tt, snd (Timer.is_activated self false w))
    end).
  { unfold Timer.update, bind.
    rewrite (is_activated_no_reset w self t Hself). simpl.
    assert (Hq : heap (after_check t w) !! self = Some t)
      by (by rewrite heap_after_check).
    destruct (activated t (now w)); [|done].
    rewrite (getattr_ok _ self t Hq).
    destruct (call_back t) eqn:Hcb; simpl; try done.
    by rewrite (getattr_ok _ self t Hq), Hcb. }
  assert (Hheap : heap (snd (Timer.is_activated self false w)) = heap w).
  { rewrite (is_activated_no_reset w self t Hself). apply heap_after_check. }
  split; [done|]. split; [done|].
  intros Hquiet. rewrite Hupd.
  destruct (fst (Timer.is_activated self false w)) as [[|]|]; try done.
  destruct (call_back t); try done.
  by rewrite Hquiet.
Qed.

Lemma update_spec_witness :
  heap sample_world !! 1%nat = Some stopwatch_running /\
  heap (snd (Timer.is_activated 1%nat false sample_world)) = heap sample_world /\
  Timer.update sample_call 1%nat sample_world =
    sample_call "ring" (tick sample_world).
Proof.
  split; [reflexivity|].
  destruct (update_spec sample_call sample_world 1%nat stopwatch_running eq_refl)
    as (Hheap & Hupd & _).
  exact (conj Hheap Hupd).
Defined.

(** C10: a timer whose target is zero is never activated: [is_activated]
    returns false for either value of the reset flag and whatever the
    accumulated time and the running state, without touching the world, and
    [update] returns without calling the callback. *)
Theorem zero_target_never_activates
    (call : string -> M unit) (w : world) (self : loc) (t : timer)
    (reset_flag : bool) :
  heap w !! self = Some t ->
  target_time t = Some 0 ->
  Timer.is_activated self reset_flag w = (Ok false, w) /\
  Timer.update call self w = (Ok tt, w).
Proof.
  intros Hself Hzero.
  assert (Hmiss : activated t (now w) = false)
    by (unfold activated; by rewrite Hzero).
  assert (Hsame : after_check t w = w)
    by (unfold after_check; by rewrite Hzero).
  split.
  - by rewrite (is_activated_miss w self t Hself reset_flag Hmiss), Hsame.
  - unfold Timer.update, bind.
    by rewrite (is_activated_miss w self t Hself false Hmiss), Hsame.
Qed.

Lemma zero_target_never_activates_witness :
  heap zero_world !! 1%nat = Some zero_target /\
  target_time zero_target = Some 0 /\
  Timer.is_activated 1%nat true zero_world = (Ok false, zero_world) /\
  Timer.update failing_call 1%nat zero_world = (Ok tt, zero_world).
Proof.
  split; [reflexivity|]. split; [reflexivity|].
  exact (zero_target_never_activates failing_call zero_world 1%nat zero_target
           true eq_refl eq_refl).
Defined.

(** ** Dictionaries *)

Lemma dict_get_set_eq d key v : dict_get (dict_set d key v) key = Some v.
Proof.
  induction d as [|[k v'] rest IH]; simpl.
  - by rewrite String.eqb_refl.
  - destruct (String.eqb k key) eqn:Hk; simpl; by rewrite Hk.
Qed.

Lemma dict_get_set_ne d key key' v :
  key <> key' -> dict_get (dict_set d key v) key' = dict_get d key'.
Proof.
  intros Hne. induction d as [|[k v'] rest IH]; simpl.
  - by apply String.eqb_neq in Hne as ->.
  - destruct (String.eqb_spec k key) as [->|Hk]; simpl.
    + by apply String.eqb_neq in Hne as ->.
    + by rewrite IH.
Qed.

Lemma dict_get_del_eq d key : dict_get (dict_del d key) key = None.
Proof.
  induction d as [|[k v] rest IH]; simpl; [done|].
  destruct (String.eqb k key) eqn:Hk; simpl; [done|]. by rewrite Hk.
Qed.

Lemma dict_get_del_ne d key key' :
  key <> key' -> dict_get (dict_del d key) key' = dict_get d key'.
Proof.
  intros Hne. induction d as [|[k v] rest IH]; simpl; [done|].
  destruct (String.eqb_spec k key) as [->|Hk]; simpl.
  - by apply String.eqb_neq in Hne as ->.
  - by rewrite IH.
Qed.

Lemma dict_keys_set d key v :
  dict_keys (dict_set d key v) =
  if dict_contains d key then dict_keys d else dict_keys d ++ [key].
Proof.
  unfold dict_contains. induction d as [|[k v'] rest IH]; simpl; [done|].
  destruct (String.eqb k key); simpl; [done|].
  rewrite IH. by destruct (dict_get rest key).
Qed.

Lemma dict_get_None d key : dict_get d key = None <-> key ∉ dict_keys d.
Proof.
  induction d as [|[k v] rest IH]; simpl.
  - split; [intros _; apply not_elem_of_nil | done].
  - rewrite not_elem_of_cons.
    destruct (String.eqb_spec k key) as [->|Hk].
    + split; [done | by intros [Hne _]].
    + rewrite IH. split; [intros Hrest; split; [congruence | done] | by intros [_ Hrest]].
Qed.

Lemma dict_keys_del d key : dict_keys (dict_del d key) = filter (λ k, k ≠ key) (dict_keys d).
Proof.
  induction d as [|[k v] rest IH]; simpl; [done|].
  rewrite filter_cons. simpl.
  destruct (String.eqb_spec k key) as [->|Hk].
  - by rewrite decide_False by naive_solver.
  - rewrite decide_True by done. simpl. by rewrite IH.
Qed.

(** The operations keep the keys pairwise distinct. *)
Lemma dict_wf_set d key v : dict_wf d -> dict_wf (dict_set d key v).
Proof.
  unfold dict_wf. intros Hwf. rewrite dict_keys_set.
  unfold dict_contains. destruct (dict_get d key) eqn:Hg; [done|].
  apply NoDup_app. split; [done|]. split; [|apply NoDup_singleton].
  intros k Hk ->%list_elem_of_singleton. by apply dict_get_None in Hg.
Qed.

Lemma dict_wf_del d key : dict_wf d -> dict_wf (dict_del d key).
Proof. unfold dict_wf. rewrite dict_keys_del. apply NoDup_filter. Qed.

(** ** Timer_Manager: registration and lookup *)

(** C9: after a timer has been assigned to a name, the lookup of that name
    returns that very timer; looking up or deleting a name that is absent
    raises [AttributeError] and leaves the manager as it was; and after a
    deletion the lookup of the name raises [AttributeError]. *)
Theorem registry_lookup_spec :
  (forall (m : timer_manager) (name : string) (t : loc),
     fst (Timer_Manager.__setattr__ m name (VTimer t)) = Ok tt /\
     Timer_Manager.__getattr__
       (snd (Timer_Manager.__setattr__ m name (VTimer t))) name =
     (Ok t, snd (Timer_Manager.__setattr__ m name (VTimer t))))
  /\
  (forall (m : timer_manager) (name : string),
     dict_get (__timers m) name = None ->
     Timer_Manager.__getattr__ m name =
       (Raise (AttributeError ("Timer '" ++ name ++ "' does not exist.")), m) /\
     Timer_Manager.__delattr__ m name =
       (Raise (AttributeError ("Timer '" ++ name ++ "' does not exist.")), m))
  /\
  (forall (m : timer_manager) (name : string),
     Timer_Manager.__getattr__ (snd (Timer_Manager.__delattr__ m name)) name =
     (Raise (AttributeError ("Timer '" ++ name ++ "' does not exist.")),
      snd (Timer_Manager.__delattr__ m name))).
Proof.
  split; [|split].
  - intros m name t. simpl. split; [done|].
    unfold Timer_Manager.__getattr__. simpl. by rewrite dict_get_set_eq.
  - intros m name Hnone.
    unfold Timer_Manager.__getattr__, Timer_Manager.__delattr__, dict_contains.
    by rewrite Hnone.
  - intros m name.
    unfold Timer_Manager.__delattr__, Timer_Manager.__getattr__, dict_contains.
    destruct (dict_get (__timers m) name) eqn:Hg; simpl.
    + by rewrite dict_get_del_eq.
    + by rewrite Hg.
Qed.

Lemma registry_lookup_spec_witness :
  dict_get (__timers sample_manager) "c" = None /\
  Timer_Manager.__getattr__ sample_manager "c" =
    (Raise (AttributeError "Timer 'c' does not exist."), sample_manager) /\
  Timer_Manager.__delattr__ sample_manager "c" =
    (Raise (AttributeError "Timer 'c' does not exist."), sample_manager).
Proof.
  split; [reflexivity|].
  exact (proj1 (proj2 registry_lookup_spec) sample_manager "c"%string eq_refl).
Defined.

(** ** Timer_Manager: stopping every timer *)

Lemma is_running_inv w l :
  is_running w l = true ->
  exists t s, heap w !! l = Some t /\ start_time t = Some s.
Proof.
  unfold is_running, running. destruct (heap w !! l) as [t|]; [|done].
  destruct (start_time t) as [s|] eqn:Hs; [|done]. by exists t, s.
Qed.

Lemma is_stopped_inv w l :
  is_stopped w l = true ->
  exists t, heap w !! l = Some t /\ start_time t = None.
Proof.
  unfold is_stopped, running. destruct (heap w !! l) as [t|]; [|done].
  destruct (start_time t) eqn:Hs; [done|]. by exists t.
Qed.

(** One successful [stop]: the timer is stopped and no other is touched. *)
Lemma stop_one w l :
  is_running w l = true ->
  exists w',
    Timer.stop l w = (Ok tt, w') /\
    is_stopped w' l = true /\
    forall l', l' <> l -> heap w' !! l' = heap w !! l'.
Proof.
  intros (t & s & Hl & Hs)%is_running_inv.
  eexists. split; [exact (stop_running w l t Hl s Hs)|]. split.
  - unfold is_stopped. simpl. by rewrite lookup_insert_eq.
  - intros l' Hne. simpl. by rewrite lookup_insert_ne.
Qed.

Lemma is_running_frame w w' l :
  heap w' !! l = heap w !! l -> is_running w' l = is_running w l.
Proof. unfold is_running. by intros ->. Qed.

Lemma is_stopped_frame w w' l :
  heap w' !! l = heap w !! l -> is_stopped w' l = is_stopped w l.
Proof. unfold is_stopped. by intros ->. Qed.

(** Distinct running timers are all stopped. *)
Lemma stop_each_running ls :
  forall w,
    NoDup ls ->
    Forall (fun l => is_running w l = true) ls ->
    exists w',
      stop_each ls w = (Ok false, w') /\
      Forall (fun l => is_stopped w' l = true) ls /\
      forall l', l' ∉ ls -> heap w' !! l' = heap w !! l'.
Proof.
  induction ls as [|l ls IH]; intros w Hnd Hrun.
  - exists w. by repeat split.
  - apply NoDup_cons in Hnd as [Hl Hnd].
    apply Forall_cons in Hrun as [Hrl Hrun].
    destruct (stop_one w l Hrl) as (w1 & Hstop & Hst & Hfr).
    destruct (IH w1 Hnd) as (w' & Hrest & Hall & Hfr').
    { apply Forall_forall. intros l' Hin.
      rewrite (is_running_frame w w1 l').
      - by apply (proj1 (Forall_forall _ _) Hrun).
      - apply Hfr. intros ->. contradiction. }
    exists w'. split; [|split].
    + unfold stop_each in *. simpl. unfold returns_None, bind in *.
      by rewrite Hstop.
    + apply Forall_cons. split; [|done].
      by rewrite (is_stopped_frame w1 w' l (Hfr' l Hl)).
    + intros l' [Hne Hnin]%not_elem_of_cons.
      by rewrite Hfr', Hfr.
Qed.

(** The loop ends at the first timer that is not running. *)
Lemma stop_each_halts before :
  forall w l rest,
    NoDup before ->
    l ∉ before ->
    Forall (fun l' => is_running w l' = true) before ->
    is_stopped w l = true ->
    exists w',
      stop_each (before ++ l :: rest) w =
        (Raise (ValueError "Timer is not running."), w') /\
      Forall (fun l' => is_stopped w' l' = true) before /\
      forall l', l' ∉ before -> heap w' !! l' = heap w !! l'.
Proof.
  induction before as [|b before IH]; intros w l rest Hnd Hl Hrun Hst.
  - exists w. split; [|by split].
    destruct (is_stopped_inv w l Hst) as (t & Hlk & Hs).
    unfold stop_each. simpl. unfold returns_None, bind.
    by rewrite (stop_stopped w l t Hlk Hs).
  - apply NoDup_cons in Hnd as [Hb Hnd].
    apply Forall_cons in Hrun as [Hrb Hrun].
    apply not_elem_of_cons in Hl as [Hlb Hl].
    destruct (stop_one w b Hrb) as (w1 & Hstop & Hstb & Hfr).
    destruct (IH w1 l rest Hnd Hl) as (w' & Hrest & Hall & Hfr').
    { apply Forall_forall. intros l' Hin.
      rewrite (is_running_frame w w1 l').
      - by apply (proj1 (Forall_forall _ _) Hrun).
      - apply Hfr. intros ->. contradiction. }
    { by rewrite (is_stopped_frame w w1 l (Hfr l Hlb)). }
    exists w'. split; [|split].
    + unfold stop_each in *. simpl. unfold returns_None, bind in *.
      by rewrite Hstop.
    + apply Forall_cons. split; [|done].
      by rewrite (is_stopped_frame w1 w' b (Hfr' b Hb)).
    + intros l' [Hne Hnin]%not_elem_of_cons.
      by rewrite Hfr', Hfr.
Qed.

Lemma stop_all_unfold m w :
  Timer_Manager.stop_all m w =
  match stop_each (dict_values (__timers m)) w with
  | (Ok _, w') => (Ok tt, w')
  | (Raise e, w') => (Raise e, w')
  end.
Proof. reflexivity. Qed.

(** C1, as stated, fails: with the stopped timer [a] registered before the
    running timer [b], [stop_all] raises the [ValueError] of [a] and [b] is
    still running afterwards. *)
Lemma stop_all_halts_on_stopped_timer :
  dict_get (__timers sample_manager) "a" = Some 2%nat /\
  dict_get (__timers sample_manager) "b" = Some 1%nat /\
  is_stopped sample_world 2%nat = true /\
  is_running sample_world 1%nat = true /\
  fst (Timer_Manager.stop_all sample_manager sample_world) =
    Raise (ValueError "Timer is not running.") /\
  is_running (snd (Timer_Manager.stop_all sample_manager sample_world)) 1%nat = true.
Proof. repeat split. Qed.

(** C1, amended: [stop_all] visits the timers in the order of the
    dictionary and does not suppress a failure.  It ends at the first timer
    that is not running and raises the [ValueError] of that timer's [stop]:
    the timers before it have been stopped, and every other timer, those
    after it included, is as it was.  When all the registered timers are
    running, and are distinct objects, all of them are stopped and nothing
    is raised. *)
Theorem stop_all_spec (m : timer_manager) (w : world) :
  (forall before l rest,
     dict_values (__timers m) = before ++ l :: rest ->
     NoDup before ->
     l ∉ before ->
     Forall (fun l' => is_running w l' = true) before ->
     is_stopped w l = true ->
     fst (Timer_Manager.stop_all m w) = Raise (ValueError "Timer is not running.") /\
     Forall (fun l' => is_stopped (snd (Timer_Manager.stop_all m w)) l' = true) before /\
     forall l', l' ∉ before ->
       heap (snd (Timer_Manager.stop_all m w)) !! l' = heap w !! l')
  /\
  (NoDup (dict_values (__timers m)) ->
   Forall (fun l => is_running w l = true) (dict_values (__timers m)) ->
   fst (Timer_Manager.stop_all m w) = Ok tt /\
   Forall (fun l => is_stopped (snd (Timer_Manager.stop_all m w)) l = true)
          (dict_values (__timers m)) /\
   forall l', l' ∉ dict_values (__timers m) ->
     heap (snd (Timer_Manager.stop_all m w)) !! l' = heap w !! l').
Proof.
  rewrite stop_all_unfold. split.
  - intros before l rest Hvals Hnd Hl Hrun Hst. rewrite Hvals.
    destruct (stop_each_halts before w l rest Hnd Hl Hrun Hst)
      as (w' & -> & Hall & Hfr).
    by repeat split.
  - intros Hnd Hrun.
    destruct (stop_each_running _ w Hnd Hrun) as (w' & -> & Hall & Hfr).
    by repeat split.
Qed.

Lemma stop_all_spec_witness :
  (dict_values (__timers sample_manager) = [] ++ 2%nat :: [1%nat] /\
   is_stopped sample_world 2%nat = true /\
   fst (Timer_Manager.stop_all sample_manager sample_world) =
     Raise (ValueError "Timer is not running.")) /\
  (NoDup (dict_values (__timers sample_manager)) /\
   Forall (fun l => is_running busy_world l = true)
          (dict_values (__timers sample_manager)) /\
   fst (Timer_Manager.stop_all sample_manager busy_world) = Ok tt /\
   Forall (fun l => is_stopped (snd (Timer_Manager.stop_all sample_manager busy_world)) l = true)
          (dict_values (__timers sample_manager))).
Proof.
  assert (Hnd : NoDup (dict_values (__timers sample_manager))).
  { apply NoDup_cons. split; [|apply NoDup_singleton].
    intros Hin%list_elem_of_singleton. discriminate Hin. }
  assert (Hrun : Forall (fun l => is_running busy_world l = true)
                        (dict_values (__timers sample_manager))).
  { repeat constructor. }
  split.
  - split; [reflexivity|]. split; [reflexivity|].
    refine (proj1 (proj1 (stop_all_spec sample_manager sample_world)
                    [] 2%nat [1%nat] eq_refl _ _ _ eq_refl)).
    + apply NoDup_nil_2.
    + apply not_elem_of_nil.
    + apply Forall_nil_2.
  - split; [exact Hnd|]. split; [exact Hrun|].
    destruct (proj2 (stop_all_spec sample_manager busy_world) Hnd Hrun)
      as (Hok & Hall & _).
    exact (conj Hok Hall).
Defined.


(** * Further properties of the module *)

(** ** Timer: what the methods leave alone *)

Lemma touches_only_refl self t w :
  heap w !! self = Some t -> touches_only self t w w.
Proof. intros Hself. split; [by exists t|]. by split. Qed.

Lemma touches_only_tick self t w :
  heap w !! self = Some t -> touches_only self t w (tick w).
Proof. intros Hself. split; [by exists t|]. by split. Qed.

Lemma touches_only_store self t t' w w0 :
  clock w0 = clock w ->
  target_time t' = target_time t -> call_back t' = call_back t ->
  touches_only self t w (with_heap (<[self := t']> (heap w)) w0).
Proof.
  intros Hc Ht Hcb. split; [|split].
  - exists t'. simpl. by rewrite lookup_insert_eq.
  - intros l Hne. simpl. by rewrite lookup_insert_ne.
  - done.
Qed.

Lemma clock_after_check t w : clock (after_check t w) = clock w.
Proof.
  unfold after_check, after_query.
  destruct (truthy _); [destruct (running t)|]; done.
Qed.

Lemma touches_only_after_check self t w :
  heap w !! self = Some t -> touches_only self t w (after_check t w).
Proof.
  intros Hself. unfold after_check, after_query.
  destruct (truthy _); [destruct (running t)|];
    auto using touches_only_refl, touches_only_tick.
Qed.

(** X1: No method of a timer changes its target or its callback, and none
    touches another timer or the clock. *)
Theorem timer_methods_touch_only_self (w : world) (self : loc) (t : timer) :
  heap w !! self = Some t ->
  touches_only self t w (snd (Timer.get_time_spend self w)) /\
  touches_only self t w (snd (Timer.start self w)) /\
  touches_only self t w (snd (Timer.stop self w)) /\
  touches_only self t w (snd (Timer.reset self w)) /\
  forall reset_flag,
    touches_only self t w (snd (Timer.is_activated self reset_flag w)).
Proof.
  intros Hself. repeat split_and.
  - rewrite (get_time_spend_eq w self t Hself). unfold after_query. simpl.
    destruct (running t); auto using touches_only_refl, touches_only_tick.
  - destruct (start_time t) as [s|] eqn:Hs.
    + rewrite (start_running w self t Hself s Hs). by apply touches_only_refl.
    + rewrite (start_stopped w self t Hself Hs). by apply touches_only_store.
  - destruct (start_time t) as [s|] eqn:Hs.
    + rewrite (stop_running w self t Hself s Hs). by apply touches_only_store.
    + rewrite (stop_stopped w self t Hself Hs). by apply touches_only_refl.
  - rewrite (reset_eq w self t Hself). by apply touches_only_store.
  - intros reset_flag. destruct (activated t (now w)) eqn:Hact.
    + destruct reset_flag.
      * rewrite (is_activated_reset_hit w self t Hself Hact).
        apply touches_only_store; try done.
        simpl. apply clock_after_check.
      * rewrite (is_activated_no_reset w self t Hself).
        by apply touches_only_after_check.
    + rewrite (is_activated_miss w self t Hself reset_flag Hact).
      by apply touches_only_after_check.
Qed.

Lemma timer_methods_touch_only_self_witness :
  heap sample_world !! 1%nat = Some stopwatch_running /\
  touches_only 1%nat stopwatch_running sample_world
               (snd (Timer.stop 1%nat sample_world)).
Proof.
  split; [reflexivity|].
  exact (proj1 (proj2 (proj2
    (timer_methods_touch_only_self sample_world 1%nat stopwatch_running eq_refl)))).
Defined.

(** ** Timer: one start/stop cycle *)

(** X2: Starting a stopped timer and stopping it again adds to the accumulated
    time exactly the difference between the two clock readings, and leaves
    the timer stopped. *)
Theorem start_then_stop_banks_interval (w : world) (self : loc) (t : timer) :
  heap w !! self = Some t ->
  start_time t = None ->
  fst (Timer.start self w) = Ok tt /\
  Timer.stop self (snd (Timer.start self w)) =
  (Ok tt,
   World (<[self := mkTimer (target_time t) None
                            (time_spend t + (clock w (S (ticks w)) - clock w (ticks w)))
                            (call_back t)]> (heap w))
         (clock w) (S (S (ticks w)))).
Proof.
  intros Hself Hs. rewrite (start_stopped w self t Hself Hs). simpl.
  split; [done|].
  erewrite stop_running; [|apply lookup_with_heap_eq|reflexivity].
  unfold with_heap, tick, now. simpl. by rewrite insert_insert_eq.
Qed.

Lemma start_then_stop_banks_interval_witness :
  heap sample_world !! 2%nat = Some stopwatch_idle /\
  start_time stopwatch_idle = None /\
  Timer.stop 2%nat (snd (Timer.start 2%nat sample_world)) =
  (Ok tt,
   World (<[2%nat := mkTimer (Some 30) None (12 + (107 - 100)) PyNone]>
            (heap sample_world))
         sample_clock 2).
Proof.
  split; [reflexivity|]. split; [reflexivity|].
  exact (proj2 (start_then_stop_banks_interval sample_world 2%nat stopwatch_idle
                  eq_refl eq_refl)).
Defined.

(** ** Timer: elapsed time is never negative *)

Lemma now_tick w : monotone w -> now w <= now (tick w).
Proof. intros Hm. apply Hm. Qed.

Lemma now_after_check t w : monotone w -> now w <= now (after_check t w).
Proof.
  intros Hm. unfold after_check, after_query.
  destruct (truthy _); [destruct (running t)|]; try lia. by apply now_tick.
Qed.

Lemma sound_later w w0 :
  sound w -> heap w0 = heap w -> now w <= now w0 -> sound w0.
Proof.
  intros Hs Hh Hn l t Hl. rewrite Hh in Hl.
  destruct (Hs l t Hl) as [Hacc Hst]. split; [done|].
  intros s Hstart. specialize (Hst s Hstart). lia.
Qed.

Lemma sound_store w w0 self t' :
  sound w -> now w <= now w0 ->
  0 <= time_spend t' ->
  (forall s, start_time t' = Some s -> s <= now w0) ->
  sound (with_heap (<[self := t']> (heap w)) w0).
Proof.
  intros Hs Hn Hacc Hst l t Hl. simpl in Hl.
  destruct (decide (l = self)) as [->|Hne].
  - rewrite lookup_insert_eq in Hl. by injection Hl as <-.
  - rewrite lookup_insert_ne in Hl by done.
    destruct (Hs l t Hl) as [Hacc' Hst']. split; [done|].
    intros s Hstart. specialize (Hst' s Hstart).
    change (now (with_heap (<[self:=t']> (heap w)) w0)) with (now w0). lia.
Qed.

(** X3: On a clock that never runs backwards, a world in which nothing negative
    is accumulated and no timer was started in the future stays so under
    every method of a timer and under the creation of a timer, and the
    elapsed time read in such a world is not negative. *)
Theorem elapsed_never_negative (w : world) (self : loc) (t : timer) :
  monotone w ->
  sound w ->
  heap w !! self = Some t ->
  (exists e, fst (Timer.get_time_spend self w) = Ok e /\ 0 <= e) /\
  sound (snd (Timer.get_time_spend self w)) /\
  sound (snd (Timer.start self w)) /\
  sound (snd (Timer.stop self w)) /\
  sound (snd (Timer.reset self w)) /\
  (forall reset_flag, sound (snd (Timer.is_activated self reset_flag w))) /\
  (forall activation_time cb, sound (snd (Timer.new activation_time cb w))).
Proof.
  intros Hm Hs Hself. destruct (Hs self t Hself) as [Hacc Hst].
  assert (Htick : sound (tick w))
    by (apply (sound_later w); [done|done|by apply now_tick]).
  assert (Hchk : sound (after_check t w)).
  { apply (sound_later w); [done|apply heap_after_check|by apply now_after_check]. }
  repeat split_and.
  - rewrite (get_time_spend_eq w self t Hself). eexists. split; [done|].
    unfold spec_elapsed. destruct (start_time t) as [s|]; [|done].
    specialize (Hst s eq_refl). lia.
  - rewrite (get_time_spend_eq w self t Hself). unfold after_query. simpl.
    by destruct (running t).
  - destruct (start_time t) as [s|] eqn:Hstart.
    + by rewrite (start_running w self t Hself s Hstart).
    + rewrite (start_stopped w self t Hself Hstart).
      apply sound_store; [done | by apply now_tick | done |].
      simpl. intros s [= <-]. by apply now_tick.
  - destruct (start_time t) as [s|] eqn:Hstart.
    + rewrite (stop_running w self t Hself s Hstart).
      apply sound_store; [done | by apply now_tick | | done].
      simpl. specialize (Hst s eq_refl). lia.
    + by rewrite (stop_stopped w self t Hself Hstart).
  - rewrite (reset_eq w self t Hself).
    apply sound_store; [done | lia | done | done].
  - intros reset_flag. destruct (activated t (now w)) eqn:Hact.
    + destruct reset_flag.
      * rewrite (is_activated_reset_hit w self t Hself Hact).
        assert (Hm' : monotone (after_check t w))
          by (unfold monotone; by rewrite clock_after_check).
        pose proof (now_after_check t w Hm) as Hn.
        pose proof (now_tick _ Hm') as Hn'.
        apply sound_store; [done | lia | done |].
        unfold restarted. simpl. by intros s [= <-].
      * by rewrite (is_activated_no_reset w self t Hself).
    + by rewrite (is_activated_miss w self t Hself reset_flag Hact).
  - intros a cb. unfold Timer.new, alloc. simpl.
    apply sound_store; [done | lia | done | done].
Qed.

Lemma sample_clock_monotone : monotone sample_world.
Proof. intros n. simpl. unfold sample_clock. lia. Qed.

Lemma sample_world_sound : sound sample_world.
Proof.
  intros l t Hl. unfold sample_world in Hl. cbn [heap] in Hl.
  destruct (decide (l = 1%nat)) as [->|H1].
  - rewrite lookup_insert_eq in Hl. injection Hl as <-.
    split; [by vm_compute|]. intros s [= <-]. by vm_compute.
  - rewrite lookup_insert_ne in Hl by done.
    destruct (decide (l = 2%nat)) as [->|H2].
    + rewrite lookup_singleton_eq in Hl. injection Hl as <-.
      split; [by vm_compute|]. by intros s.
    + by rewrite lookup_singleton_ne in Hl.
Qed.

Lemma elapsed_never_negative_witness :
  monotone sample_world /\
  sound sample_world /\
  heap sample_world !! 1%nat = Some stopwatch_running /\
  sound (snd (Timer.stop 1%nat sample_world)).
Proof.
  split; [exact sample_clock_monotone|].
  split; [exact sample_world_sound|].
  split; [reflexivity|].
  exact (proj1 (proj2 (proj2 (proj2
    (elapsed_never_negative sample_world 1%nat stopwatch_running
       sample_clock_monotone sample_world_sound eq_refl))))).
Defined.

(** ** Timer: a timer without target *)

(** X4: A timer built without target is never activated: [is_activated]
    returns false for either value of the reset flag without reading the
    clock or writing anything, and [update] calls nothing. *)
Theorem no_target_never_activates
    (call : string -> M unit) (w : world) (self : loc) (t : timer)
    (reset_flag : bool) :
  heap w !! self = Some t ->
  target_time t = None ->
  Timer.is_activated self reset_flag w = (Ok false, w) /\
  Timer.update call self w = (Ok tt, w).
Proof.
  intros Hself Hnone.
  assert (Hmiss : activated t (now w) = false)
    by (unfold activated; by rewrite Hnone).
  assert (Hsame : after_check t w = w)
    by (unfold after_check; by rewrite Hnone).
  split.
  - by rewrite (is_activated_miss w self t Hself reset_flag Hmiss), Hsame.
  - unfold Timer.update, bind.
    by rewrite (is_activated_miss w self t Hself false Hmiss), Hsame.
Qed.

Lemma no_target_never_activates_witness :
  heap stopwatch_world !! 1%nat = Some (mkTimer None (Some 40) 12 (PyCallable "ring")) /\
  Timer.is_activated 1%nat true stopwatch_world = (Ok false, stopwatch_world) /\
  Timer.update failing_call 1%nat stopwatch_world = (Ok tt, stopwatch_world).
Proof.
  split; [reflexivity|].
  exact (no_target_never_activates failing_call stopwatch_world 1%nat _ true
           eq_refl eq_refl).
Defined.

(** ** Timer: a periodic alarm *)

(** X5: After [is_activated(True)] has fired, the next test, with either flag,
    compares the target with the time gone by since the restart alone: it
    is true exactly when the target is at most the reading it takes minus
    the restart instant. *)
Theorem is_activated_after_reset (w : world) (self : loc) (t : timer) (d : Z)
    (reset_flag : bool) :
  heap w !! self = Some t ->
  target_time t = Some d ->
  fst (Timer.is_activated self true w) = Ok true ->
  fst (Timer.is_activated self reset_flag (snd (Timer.is_activated self true w))) =
  Ok (d <=? now (snd (Timer.is_activated self true w))
            - now (snd (Timer.is_activated self false w))).
Proof.
  intros Hself Hd Hfired.
  assert (Hact : activated t (now w) = true).
  { destruct (activated t (now w)) eqn:Hact; [done|].
    by rewrite (is_activated_miss w self t Hself true Hact) in Hfired. }
  rewrite (is_activated_no_reset w self t Hself).
  rewrite (is_activated_reset_hit w self t Hself Hact). cbn [fst snd].
  set (w1 := with_heap _ _).
  assert (H1 : heap w1 !! self = Some (restarted t (now (after_check t w))))
    by apply lookup_with_heap_eq.
  assert (Hnz : (d =? 0) = false).
  { unfold activated in Hact. rewrite Hd in Hact. by destruct (d =? 0). }
  assert (Hval : activated (restarted t (now (after_check t w))) (now w1) =
                 (d <=? now w1 - now (after_check t w))).
  { unfold activated, restarted, spec_elapsed. simpl. rewrite Hd, Hnz. simpl.
    f_equal. }
  rewrite <- Hval.
  destruct (activated (restarted t (now (after_check t w))) (now w1)) eqn:Hnext.
  - destruct reset_flag.
    + by rewrite (is_activated_reset_hit w1 self _ H1 Hnext).
    + by rewrite (is_activated_no_reset w1 self _ H1), Hnext.
  - by rewrite (is_activated_miss w1 self _ H1 reset_flag Hnext).
Qed.

Lemma is_activated_after_reset_witness :
  heap sample_world !! 1%nat = Some stopwatch_running /\
  target_time stopwatch_running = Some 30 /\
  fst (Timer.is_activated 1%nat true sample_world) = Ok true /\
  fst (Timer.is_activated 1%nat false
         (snd (Timer.is_activated 1%nat true sample_world))) = Ok false.
Proof.
  split; [reflexivity|]. split; [reflexivity|]. split; [reflexivity|].
  exact (is_activated_after_reset sample_world 1%nat stopwatch_running 30 false
           eq_refl eq_refl eq_refl).
Defined.


(** ** Timer_Manager: starting and resetting every timer *)

Lemma start_one w l :
  is_Some (heap w !! l) ->
  exists w',
    Timer.start l w = (Ok tt, w') /\
    is_running w' l = true /\
    (forall l', l' <> l -> heap w' !! l' = heap w !! l') /\
    (is_running w l = true -> w' = w).
Proof.
  intros [t Hl]. destruct (start_time t) as [s|] eqn:Hs.
  - exists w. rewrite (start_running w l t Hl s Hs).
    unfold is_running, running. rewrite Hl, Hs. by repeat split.
  - eexists. rewrite (start_stopped w l t Hl Hs). split; [done|]. split; [|split].
    + unfold is_running. simpl. by rewrite lookup_insert_eq.
    + intros l' Hne. simpl. by rewrite lookup_insert_ne.
    + unfold is_running, running. by rewrite Hl, Hs.
Qed.

Lemma start_each_spec ls :
  forall w,
    Forall (fun l => is_Some (heap w !! l)) ls ->
    exists w',
      start_each ls w = (Ok false, w') /\
      Forall (fun l => is_running w' l = true) ls /\
      (forall l, l ∉ ls -> heap w' !! l = heap w !! l) /\
      (forall l, is_running w l = true -> heap w' !! l = heap w !! l).
Proof.
  induction ls as [|l ls IH]; intros w Hin.
  - exists w. by repeat split.
  - apply Forall_cons in Hin as [Hl Hin].
    destruct (start_one w l Hl) as (w1 & Hstart & Hrun & Hfr & Hsame).
    destruct (IH w1) as (w' & Hrest & Hall & Hfr' & Hkeep).
    { apply Forall_forall. intros l' Hl'.
      destruct (decide (l' = l)) as [->|Hne].
      - unfold is_running in Hrun. by destruct (heap w1 !! l).
      - rewrite (Hfr l' Hne). by apply (proj1 (Forall_forall _ _) Hin). }
    exists w'. split; [|split; [|split]].
    + unfold start_each in *. simpl. unfold returns_None, bind in *.
      by rewrite Hstart.
    + apply Forall_cons. split; [|done].
      by rewrite (is_running_frame w1 w' l (Hkeep l Hrun)).
    + intros l' [Hne Hnin]%not_elem_of_cons. by rewrite Hfr', Hfr.
    + intros l' Hr. destruct (decide (l' = l)) as [->|Hne].
      * specialize (Hsame Hr). subst w1. by apply Hkeep.
      * rewrite Hkeep; [by apply Hfr|].
        by rewrite (is_running_frame w w1 l' (Hfr l' Hne)).
Qed.

Lemma start_each_running ls :
  forall w,
    Forall (fun l => is_running w l = true) ls ->
    start_each ls w = (Ok false, w).
Proof.
  induction ls as [|l ls IH]; intros w Hrun; [done|].
  apply Forall_cons in Hrun as [Hl Hrun].
  destruct (is_running_inv w l Hl) as (t & s & Hlk & Hs).
  unfold start_each in *. simpl. unfold returns_None, bind in *.
  rewrite (start_running w l t Hlk s Hs). by apply IH.
Qed.

Lemma start_all_unfold m w :
  Timer_Manager.start_all m w =
  match start_each (dict_values (__timers m)) w with
  | (Ok _, w') => (Ok tt, w')
  | (Raise e, w') => (Raise e, w')
  end.
Proof. reflexivity. Qed.

Lemma reset_all_unfold m w :
  Timer_Manager.reset_all m w =
  match reset_each (dict_values (__timers m)) w with
  | (Ok _, w') => (Ok tt, w')
  | (Raise e, w') => (Raise e, w')
  end.
Proof. reflexivity. Qed.

(** X6: [start_all] never fails: afterwards every registered timer is running,
    a timer that was running already has kept its start instant and its
    accumulated time, no other timer is touched, and a second [start_all]
    changes nothing at all.  This holds also when one timer is registered
    under several names. *)
Theorem start_all_spec (m : timer_manager) (w : world) :
  registered m w ->
  fst (Timer_Manager.start_all m w) = Ok tt /\
  Forall (fun l => is_running (snd (Timer_Manager.start_all m w)) l = true)
         (dict_values (__timers m)) /\
  (forall l, is_running w l = true ->
     heap (snd (Timer_Manager.start_all m w)) !! l = heap w !! l) /\
  (forall l, l ∉ dict_values (__timers m) ->
     heap (snd (Timer_Manager.start_all m w)) !! l = heap w !! l) /\
  Timer_Manager.start_all m (snd (Timer_Manager.start_all m w)) =
    (Ok tt, snd (Timer_Manager.start_all m w)).
Proof.
  intros Hreg.
  destruct (start_each_spec _ w Hreg) as (w' & Heq & Hall & Hfr & Hkeep).
  rewrite start_all_unfold, Heq. cbn [fst snd]. repeat split_and; try done.
  by rewrite start_all_unfold, (start_each_running _ w' Hall).
Qed.

Lemma start_all_spec_witness :
  registered sample_manager sample_world /\
  fst (Timer_Manager.start_all sample_manager sample_world) = Ok tt /\
  Forall (fun l => is_running (snd (Timer_Manager.start_all sample_manager sample_world)) l = true)
         (dict_values (__timers sample_manager)).
Proof.
  assert (Hreg : registered sample_manager sample_world).
  { repeat constructor; by eexists. }
  split; [exact Hreg|].
  destruct (start_all_spec sample_manager sample_world Hreg) as (Hok & Hall & _).
  exact (conj Hok Hall).
Defined.

Lemma reset_each_spec ls :
  forall w,
    Forall (fun l => is_Some (heap w !! l)) ls ->
    exists w',
      reset_each ls w = (Ok false, w') /\
      (forall l t, l ∈ ls -> heap w !! l = Some t ->
         heap w' !! l = Some (Timer.__init__ (target_time t) (call_back t))) /\
      (forall l, l ∉ ls -> heap w' !! l = heap w !! l) /\
      ticks w' = ticks w.
Proof.
  induction ls as [|l ls IH]; intros w Hin.
  - exists w. split; [done|]. split; [|done]. by intros l t ?%elem_of_nil.
  - apply Forall_cons in Hin as [[t0 Hl] Hin].
    pose proof (reset_eq w l t0 Hl) as Hreset.
    set (w1 := with_heap _ w) in Hreset.
    destruct (IH w1) as (w' & Hrest & Hall & Hfr & Hticks).
    { apply Forall_forall. intros l' Hl'. subst w1. simpl.
      destruct (decide (l' = l)) as [->|Hne].
      - by rewrite lookup_insert_eq.
      - rewrite lookup_insert_ne by done. by apply (proj1 (Forall_forall _ _) Hin). }
    exists w'. split; [|split; [|split]].
    + unfold reset_each in *. simpl. unfold returns_None, bind in *.
      by rewrite Hreset.
    + intros l' t Hmem Ht.
      destruct (decide (l' = l)) as [->|Hne].
      * assert (t = t0) as -> by congruence.
        destruct (decide (l ∈ ls)) as [Hdup|Hnodup].
        -- apply (Hall l (mkTimer (target_time t0) None 0 (call_back t0)) Hdup).
           subst w1. simpl. by rewrite lookup_insert_eq.
        -- rewrite (Hfr l Hnodup). subst w1. simpl. by rewrite lookup_insert_eq.
      * apply elem_of_cons in Hmem as [->|Hmem]; [done|].
        apply (Hall l' t Hmem). subst w1. simpl. by rewrite lookup_insert_ne.
    + intros l' [Hne Hnin]%not_elem_of_cons.
      rewrite (Hfr l' Hnin). subst w1. simpl. by rewrite lookup_insert_ne.
    + by rewrite Hticks.
Qed.

(** X7: [reset_all] never fails and never reads the clock: every registered
    timer is afterwards as [Timer(...)] built it, with the target and the
    callback it had, and no other timer is touched. *)
Theorem reset_all_spec (m : timer_manager) (w : world) :
  registered m w ->
  fst (Timer_Manager.reset_all m w) = Ok tt /\
  (forall l t, l ∈ dict_values (__timers m) -> heap w !! l = Some t ->
     heap (snd (Timer_Manager.reset_all m w)) !! l =
     Some (Timer.__init__ (target_time t) (call_back t))) /\
  (forall l, l ∉ dict_values (__timers m) ->
     heap (snd (Timer_Manager.reset_all m w)) !! l = heap w !! l) /\
  ticks (snd (Timer_Manager.reset_all m w)) = ticks w.
Proof.
  intros Hreg.
  destruct (reset_each_spec _ w Hreg) as (w' & Heq & Hall & Hfr & Hticks).
  rewrite reset_all_unfold, Heq. cbn [fst snd]. by repeat split_and.
Qed.

Lemma reset_all_spec_witness :
  registered sample_manager busy_world /\
  fst (Timer_Manager.reset_all sample_manager busy_world) = Ok tt /\
  ticks (snd (Timer_Manager.reset_all sample_manager busy_world)) = ticks busy_world.
Proof.
  assert (Hreg : registered sample_manager busy_world).
  { repeat constructor; by eexists. }
  split; [exact Hreg|].
  destruct (reset_all_spec sample_manager busy_world Hreg) as (Hok & _ & _ & Hticks).
  exact (conj Hok Hticks).
Defined.

(** ** Timer_Manager: when stopping every timer succeeds *)

Lemma stop_each_ok_inv ls :
  forall w b w',
    Forall (fun l => is_Some (heap w !! l)) ls ->
    stop_each ls w = (Ok b, w') ->
    NoDup ls /\ Forall (fun l => is_running w l = true) ls.
Proof.
  induction ls as [|l ls IH]; intros w b w' Hin Hok.
  - split; [apply NoDup_nil_2 | apply Forall_nil_2].
  - apply Forall_cons in Hin as [[t Hl] Hin].
    unfold stop_each in Hok. simpl in Hok. unfold returns_None, bind in Hok.
    destruct (start_time t) as [s|] eqn:Hs.
    + assert (Hrl : is_running w l = true)
        by (unfold is_running, running; by rewrite Hl, Hs).
      destruct (stop_one w l Hrl) as (w1 & Hstop & Hst & Hfr).
      rewrite Hstop in Hok. fold (stop_each ls) in Hok.
      assert (Hin1 : Forall (fun l' => is_Some (heap w1 !! l')) ls).
      { apply Forall_forall. intros l' Hl'.
        destruct (decide (l' = l)) as [->|Hne].
        - unfold is_stopped in Hst. by destruct (heap w1 !! l).
        - rewrite (Hfr l' Hne). by apply (proj1 (Forall_forall _ _) Hin). }
      destruct (IH w1 b w' Hin1 Hok) as [Hnd Hrun].
      assert (Hfresh : l ∉ ls).
      { intros Hmem. pose proof (proj1 (Forall_forall _ _) Hrun l Hmem) as Hr.
        unfold is_running in Hr. unfold is_stopped in Hst.
        destruct (heap w1 !! l) as [t1|]; [|done]. by destruct (running t1). }
      split; [by apply NoDup_cons|]. apply Forall_cons. split; [done|].
      apply Forall_forall. intros l' Hl'.
      rewrite <- (is_running_frame w w1 l').
      * by apply (proj1 (Forall_forall _ _) Hrun).
      * apply Hfr. intros ->. contradiction.
    + by rewrite (stop_stopped w l t Hl Hs) in Hok.
Qed.

Lemma stop_each_outcome ls :
  forall w,
    Forall (fun l => is_Some (heap w !! l)) ls ->
    fst (stop_each ls w) = Ok false \/
    fst (stop_each ls w) = Raise (ValueError "Timer is not running.").
Proof.
  induction ls as [|l ls IH]; intros w Hin; [by left|].
  apply Forall_cons in Hin as [[t Hl] Hin].
  unfold stop_each. simpl. unfold returns_None, bind.
  destruct (start_time t) as [s|] eqn:Hs.
  - rewrite (stop_running w l t Hl s Hs). apply IH.
    apply Forall_forall. intros l' Hl'. simpl.
    destruct (decide (l' = l)) as [->|Hne].
    + by rewrite lookup_insert_eq.
    + rewrite lookup_insert_ne by done. by apply (proj1 (Forall_forall _ _) Hin).
  - rewrite (stop_stopped w l t Hl Hs). by right.
Qed.

(** X8: [stop_all] returns normally exactly when the registered timers are
    pairwise distinct objects and all of them are running; in every other
    case it raises the [ValueError] of [Timer.stop].  In particular it
    always raises when one timer is registered under two names. *)
Theorem stop_all_succeeds_iff (m : timer_manager) (w : world) :
  registered m w ->
  (fst (Timer_Manager.stop_all m w) = Ok tt <->
   NoDup (dict_values (__timers m)) /\
   Forall (fun l => is_running w l = true) (dict_values (__timers m))) /\
  (fst (Timer_Manager.stop_all m w) = Ok tt \/
   fst (Timer_Manager.stop_all m w) = Raise (ValueError "Timer is not running.")).
Proof.
  intros Hreg. rewrite stop_all_unfold. split; [split|].
  - destruct (stop_each (dict_values (__timers m)) w) as [[b|e] w'] eqn:Heq; [|done].
    intros _. exact (stop_each_ok_inv _ w b w' Hreg Heq).
  - intros [Hnd Hrun].
    by destruct (stop_each_running _ w Hnd Hrun) as (w' & -> & _).
  - destruct (stop_each_outcome _ w Hreg) as [Hok|Hraise].
    + left. by destruct (stop_each (dict_values (__timers m)) w) as [[b|e] w'].
    + right. destruct (stop_each (dict_values (__timers m)) w) as [[b|e] w']; [done|].
      simpl in *. by injection Hraise as ->.
Qed.

Lemma stop_all_succeeds_iff_witness :
  registered twice_manager busy_world /\
  ~ NoDup (dict_values (__timers twice_manager)) /\
  fst (Timer_Manager.stop_all twice_manager busy_world) =
    Raise (ValueError "Timer is not running.").
Proof.
  assert (Hreg : registered twice_manager busy_world).
  { repeat constructor; by eexists. }
  assert (Hdup : ~ NoDup (dict_values (__timers twice_manager))).
  { intros [Hnot _]%NoDup_cons. apply Hnot. by apply list_elem_of_singleton. }
  split; [exact Hreg|]. split; [exact Hdup|].
  destruct (stop_all_succeeds_iff twice_manager busy_world Hreg) as [Hiff [Hok|Hraise]].
  - destruct (Hdup (proj1 (proj1 Hiff Hok))).
  - exact Hraise.
Defined.

(** X9: When the registered timers are pairwise distinct objects, [start_all]
    followed by [stop_all] succeeds, whatever the timers were doing before,
    and leaves every registered timer stopped. *)
Theorem start_all_then_stop_all (m : timer_manager) (w : world) :
  registered m w ->
  NoDup (dict_values (__timers m)) ->
  fst (Timer_Manager.start_all m w) = Ok tt /\
  fst (Timer_Manager.stop_all m (snd (Timer_Manager.start_all m w))) = Ok tt /\
  Forall (fun l =>
            is_stopped (snd (Timer_Manager.stop_all m
                               (snd (Timer_Manager.start_all m w)))) l = true)
         (dict_values (__timers m)).
Proof.
  intros Hreg Hnd.
  destruct (start_each_spec _ w Hreg) as (w1 & Hstart & Hrun & _).
  rewrite start_all_unfold, Hstart. cbn [fst snd].
  destruct (stop_each_running _ w1 Hnd Hrun) as (w2 & Hstop & Hall & _).
  rewrite stop_all_unfold, Hstop. by cbn [fst snd].
Qed.

Lemma start_all_then_stop_all_witness :
  registered sample_manager sample_world /\
  NoDup (dict_values (__timers sample_manager)) /\
  fst (Timer_Manager.stop_all sample_manager
         (snd (Timer_Manager.start_all sample_manager sample_world))) = Ok tt.
Proof.
  assert (Hreg : registered sample_manager sample_world).
  { repeat constructor; by eexists. }
  assert (Hnd : NoDup (dict_values (__timers sample_manager))).
  { apply NoDup_cons. split; [|apply NoDup_singleton].
    intros Hin%list_elem_of_singleton. discriminate Hin. }
  split; [exact Hreg|]. split; [exact Hnd|].
  exact (proj1 (proj2 (start_all_then_stop_all sample_manager sample_world Hreg Hnd))).
Defined.


(** ** Timer_Manager: the names form a finite map *)

Lemma dict_keys_fmap (d : dict) : dict_keys d = d.*1.
Proof. induction d as [|[k v] rest IH]; simpl; [done|]. by rewrite IH. Qed.

Lemma dict_get_list_to_map (d : dict) key :
  dict_get d key = (list_to_map d : gmap string loc) !! key.
Proof.
  induction d as [|[k v] rest IH]; simpl; [by rewrite lookup_empty|].
  destruct (String.eqb_spec k key) as [->|Hne].
  - by rewrite lookup_insert_eq.
  - by rewrite lookup_insert_ne.
Qed.

Lemma dict_length_size (d : dict) (g : gmap string loc) :
  dict_wf d ->
  (forall key, dict_get d key = g !! key) ->
  length d = size g.
Proof.
  intros Hwf Hagree.
  assert (g = list_to_map d) as ->.
  { apply map_eq. intros key. by rewrite <- Hagree, dict_get_list_to_map. }
  symmetry. apply map_size_list_to_map. by rewrite <- dict_keys_fmap.
Qed.

Lemma perform_agrees m g op :
  dict_wf (__timers m) ->
  (forall key, dict_get (__timers m) key = g !! key) ->
  dict_wf (__timers (perform m op)) /\
  (forall key, dict_get (__timers (perform m op)) key = record g op !! key).
Proof.
  intros Hwf Hagree. destruct op as [name t|name]; simpl.
  - split; [by apply dict_wf_set|]. intros key.
    destruct (decide (name = key)) as [->|Hne].
    + by rewrite dict_get_set_eq, lookup_insert_eq.
    + by rewrite dict_get_set_ne, lookup_insert_ne.
  - unfold Timer_Manager.__delattr__, dict_contains.
    destruct (dict_get (__timers m) name) eqn:Hg; simpl.
    + split; [by apply dict_wf_del|]. intros key.
      destruct (decide (name = key)) as [->|Hne].
      * by rewrite dict_get_del_eq, lookup_delete_eq.
      * by rewrite dict_get_del_ne, lookup_delete_ne.
    + split; [done|]. intros key.
      destruct (decide (name = key)) as [->|Hne].
      * by rewrite Hg, lookup_delete_eq.
      * by rewrite lookup_delete_ne.
Qed.

Lemma replay_agrees ops :
  forall m g,
    dict_wf (__timers m) ->
    (forall key, dict_get (__timers m) key = g !! key) ->
    dict_wf (__timers (replay ops m)) /\
    (forall key, dict_get (__timers (replay ops m)) key = bindings ops g !! key).
Proof.
  induction ops as [|op ops IH]; intros m g Hwf Hagree; [done|].
  destruct (perform_agrees m g op Hwf Hagree) as [Hwf' Hagree'].
  exact (IH (perform m op) (record g op) Hwf' Hagree').
Qed.

(** X10: Whatever names a program assigns and deletes, starting from a new
    manager, the manager behaves as the finite map of the assignments that
    were not deleted: its names stay pairwise distinct, the lookup of a
    name returns the timer assigned to it last, or raises
    [AttributeError] when the name was never assigned or was deleted
    since, and [len] is the number of names. *)
Theorem registry_is_finite_map (ops : list registry_op) :
  dict_wf (__timers (replay ops Timer_Manager.__init__)) /\
  (forall name,
     fst (Timer_Manager.__getattr__ (replay ops Timer_Manager.__init__) name) =
     match bindings ops ∅ !! name with
     | Some t => Ok t
     | None => Raise (AttributeError ("Timer '" ++ name ++ "' does not exist."))
     end) /\
  Timer_Manager.__len__ (replay ops Timer_Manager.__init__) = size (bindings ops ∅).
Proof.
  destruct (replay_agrees ops Timer_Manager.__init__ ∅) as [Hwf Hagree].
  { apply NoDup_nil_2. }
  { intros key. by rewrite lookup_empty. }
  split; [done|]. split.
  - intros name. unfold Timer_Manager.__getattr__. rewrite Hagree.
    by destruct (bindings ops ∅ !! name).
  - by apply dict_length_size.
Qed.


(** ** Timer_Manager: the order of a batch *)





(** ** Timer_Manager: update with callbacks that write nothing *)





(** ** Timer_Manager: the activated timers *)

Lemma fires_same_heap w w' reading x :
  heap w' = heap w -> fires w' reading x = fires w reading x.
Proof. unfold fires. by intros ->. Qed.

Lemma filter_no_reset (items : list (string * loc)) :
  forall w,
    Forall (fun l => is_Some (heap w !! l)) (map snd items) ->
    exists kept w',
      filter_m (fun x => Timer.is_activated (snd x) false) items w = (Ok kept, w') /\
      heap w' = heap w /\
      clock w' = clock w /\
      kept `sublist_of` items /\
      forall reading,
        (forall n, clock w n = reading) ->
        kept = List.filter (fires w reading) items.
Proof.
  induction items as [|[name l] items IH]; intros w Hin.
  - exists [], w. by repeat split.
  - apply Forall_cons in Hin as [[t Hl] Hin]. simpl in Hl.
    assert (Hin1 : Forall (fun l' => is_Some (heap (after_check t w) !! l'))
                          (map snd items))
      by (by rewrite heap_after_check).
    destruct (IH (after_check t w) Hin1) as (kept & w' & Hrest & Hheap & Hclock & Hsub & Hfrozen).
    exists (if activated t (now w) then (name, l) :: kept else kept), w'.
    split; [|split; [|split; [|split]]].
    + simpl. unfold bind. rewrite (is_activated_no_reset w l t Hl), Hrest. done.
    + by rewrite Hheap, heap_after_check.
    + by rewrite Hclock, clock_after_check.
    + destruct (activated t (now w)); by constructor.
    + intros reading Hstill. simpl. unfold fires at 1. simpl. rewrite Hl.
      unfold now at 1. rewrite Hstill.
      rewrite (Hfrozen reading) by (intros n; by rewrite clock_after_check).
      rewrite (List.filter_ext _ _
                 (fun x => fires_same_heap w (after_check t w) reading x
                             (heap_after_check w t))).
      done.
Qed.

(** X13: [get_activated(False)] never fails and changes no timer; it returns
    entries of the dictionary in the order of the dictionary; and when the
    clock stands still during the call, it returns exactly the entries
    whose timer is activated at that reading. *)
Theorem get_activated_no_reset (m : timer_manager) (w : world) :
  registered m w ->
  exists kept,
    fst (Timer_Manager.get_activated m false w) = Ok kept /\
    heap (snd (Timer_Manager.get_activated m false w)) = heap w /\
    kept `sublist_of` Timer_Manager.get_all_timers m /\
    forall reading,
      (forall n, clock w n = reading) ->
      kept = List.filter (fires w reading) (Timer_Manager.get_all_timers m).
Proof.
  intros Hreg.
  destruct (filter_no_reset (__timers m) w Hreg)
    as (kept & w' & Heq & Hheap & _ & Hsub & Hfrozen).
  exists kept. unfold Timer_Manager.get_activated, Timer_Manager.get_all_timers,
    dict_items. by rewrite Heq.
Qed.

Lemma get_activated_no_reset_witness :
  registered sample_manager frozen_world /\
  (forall n, clock frozen_world n = 100) /\
  fst (Timer_Manager.get_activated sample_manager false frozen_world) =
    Ok [("b"%string, 1%nat)].
Proof.
  assert (Hreg : registered sample_manager frozen_world).
  { repeat constructor; by eexists. }
  split; [exact Hreg|]. split; [reflexivity|].
  destruct (get_activated_no_reset sample_manager frozen_world Hreg)
    as (kept & Hok & _ & _ & Hfrozen).
  rewrite Hok. f_equal. exact (Hfrozen 100 (fun n => eq_refl)).
Defined.

Lemma is_restarted_frame w w' l :
  heap w' !! l = heap w !! l -> is_restarted w l -> is_restarted w' l.
Proof. unfold is_restarted. by intros ->. Qed.

Lemma is_activated_reset_cases w l t :
  heap w !! l = Some t ->
  exists b w',
    Timer.is_activated l true w = (Ok b, w') /\
    (forall l', l' <> l -> heap w' !! l' = heap w !! l') /\
    is_Some (heap w' !! l) /\
    (if b then is_restarted w' l else heap w' = heap w).
Proof.
  intros Hl. destruct (activated t (now w)) eqn:Hact.
  - eexists true, _. rewrite (is_activated_reset_hit w l t Hl Hact).
    split; [done|]. split; [|split].
    + intros l' Hne. simpl. by rewrite lookup_insert_ne.
    + simpl. by rewrite lookup_insert_eq.
    + eexists _, _. simpl. rewrite lookup_insert_eq. by repeat split.
  - eexists false, _. rewrite (is_activated_miss w l t Hl true Hact).
    split; [done|]. rewrite heap_after_check. by repeat split.
Qed.

Lemma filter_reset (items : list (string * loc)) :
  forall w,
    Forall (fun l => is_Some (heap w !! l)) (map snd items) ->
    exists kept w',
      filter_m (fun x => Timer.is_activated (snd x) true) items w = (Ok kept, w') /\
      kept `sublist_of` items /\
      (forall l, l ∈ map snd kept -> is_restarted w' l) /\
      (forall l, l ∉ map snd kept -> heap w' !! l = heap w !! l).
Proof.
  induction items as [|[name l] items IH]; intros w Hin.
  - exists [], w. split; [done|]. split; [apply sublist_nil|].
    split; [by intros l ?%elem_of_nil | done].
  - apply Forall_cons in Hin as [[t Hl] Hin]. simpl in Hl.
    destruct (is_activated_reset_cases w l t Hl) as (b & w1 & Hone & Hfr & Hsome & Hb).
    assert (Hin1 : Forall (fun l' => is_Some (heap w1 !! l')) (map snd items)).
    { apply Forall_forall. intros l' Hl'.
      destruct (decide (l' = l)) as [->|Hne]; [done|].
      rewrite (Hfr l' Hne). by apply (proj1 (Forall_forall _ _) Hin). }
    destruct (IH w1 Hin1) as (kept & w' & Hrest & Hsub & Hres & Hframe).
    exists (if b then (name, l) :: kept else kept), w'.
    split; [|split; [|split]].
    + simpl. unfold bind. by rewrite Hone, Hrest.
    + destruct b; by constructor.
    + destruct b; [|done]. simpl. intros l' [->|Hmem]%elem_of_cons; [|by apply Hres].
      destruct (decide (l ∈ map snd kept)) as [Hagain|Honce]; [by apply Hres|].
      apply (is_restarted_frame w1 w' l); [by apply Hframe | done].
    + destruct b; simpl.
      * intros l' [Hne Hnin]%not_elem_of_cons. by rewrite Hframe, Hfr.
      * intros l' Hnin. by rewrite Hframe, Hb.
Qed.

(** X14: [get_activated(True)] never fails and returns entries of the
    dictionary in the order of the dictionary; the timer of every entry it
    returns is afterwards running with nothing accumulated, and a timer
    that belongs to no returned entry is as it was. *)
Theorem get_activated_reset (m : timer_manager) (w : world) :
  registered m w ->
  exists kept,
    fst (Timer_Manager.get_activated m true w) = Ok kept /\
    kept `sublist_of` Timer_Manager.get_all_timers m /\
    (forall l, l ∈ map snd kept ->
       is_restarted (snd (Timer_Manager.get_activated m true w)) l) /\
    (forall l, l ∉ map snd kept ->
       heap (snd (Timer_Manager.get_activated m true w)) !! l = heap w !! l).
Proof.
  intros Hreg.
  destruct (filter_reset (__timers m) w Hreg) as (kept & w' & Heq & Hsub & Hres & Hfr).
  exists kept. unfold Timer_Manager.get_activated, Timer_Manager.get_all_timers,
    dict_items. by rewrite Heq.
Qed.

Lemma get_activated_reset_witness :
  registered sample_manager sample_world /\
  exists kept,
    fst (Timer_Manager.get_activated sample_manager true sample_world) = Ok kept /\
    kept `sublist_of` Timer_Manager.get_all_timers sample_manager.
Proof.
  assert (Hreg : registered sample_manager sample_world).
  { repeat constructor; by eexists. }
  split; [exact Hreg|].
  destruct (get_activated_reset sample_manager sample_world Hreg)
    as (kept & Hok & Hsub & _).
  exists kept. exact (conj Hok Hsub).
Defined.
